(** * dj-brevo: the Brevo API client ([dj_brevo/services/client.py])

    A shallow embedding of [BrevoClient] and the properties of its payload
    construction, sandbox transformation and response handling.

    Python values are embedded as JSON-like trees, dictionaries as finite
    maps with string keys.  The client's methods run in a small state and
    exception monad over a [World] that holds the module-level settings
    object, the dictionary objects the client allocates (so that in-place
    mutation and object identity can be stated) and the log of HTTP
    requests that went out. *)

From stdpp Require Import gmap strings list fin_maps.
From Stdlib Require Import ZArith.

Set Warnings "-register-all".
Local Open Scope Z_scope.

(** ** Python values *)

Module Py.

(** The values that flow through the client: what callers pass as keyword
    arguments and what [json.loads] produces.  Floating point numbers are
    left out. *)
Inductive pyval : Type :=
  | PNone
  | PBool (b : bool)
  | PInt (z : Z)
  | PStr (s : string)
  | PList (l : list pyval)
  | PDict (d : gmap string pyval).

(** Python's truth value testing, as used by [if x:]. *)
Definition truthy (v : pyval) : bool :=
  match v with
  | PNone => false
  | PBool b => b
  | PInt z => negb (z =? 0)
  | PStr s => negb (bool_decide (s = ""))
  | PList l => match l with [] => false | _ :: _ => true end
  | PDict d => negb (bool_decide (d = ∅))
  end.

(** [x is None]. *)
Definition is_None (v : pyval) : bool :=
  match v with
  | PNone => true
  | _ => false
  end.

(** A value of type [str | None] seen as a Python value. *)
Definition of_opt_str (o : option string) : pyval :=
  match o with
  | Some s => PStr s
  | None => PNone
  end.

End Py.
Export Py.

(** ** The HTTP library *)

Module Httpx.

(** What [response.json()], that is [json.loads] on the body, comes to.
    It returns the decoded value, which need not be an object; or the body
    is not JSON and it raises [json.JSONDecodeError] or [UnicodeDecodeError],
    both of them [ValueError]s; or the body nests deeper than the
    interpreter's recursion limit and it raises [RecursionError], which is
    not a [ValueError]. *)
Inductive Decoding : Type :=
  | Decodes (v : pyval)
  | NotJSON
  | TooDeep.

(** An [httpx.Response] as far as the client inspects it; [json] is the
    outcome of [response.json()]. *)
Record Response : Type := mkResponse {
  status_code : Z;
  text : string;
  json : Decoding;
}.

(** [response.is_success]: the status code is 2xx. *)
Definition is_success (r : Response) : bool :=
  (200 <=? status_code r) && (status_code r <=? 299).

(** What [httpx.post] is called with; [rq_json] is the content of the
    [json=] dictionary at the time of the call. *)
Record Request : Type := mkRequest {
  rq_url : string;
  rq_json : gmap string pyval;
  rq_headers : gmap string string;
  rq_timeout : Z;
}.

(** The network either answers or fails at the transport level (DNS,
    connection refused, timeout). *)
Inductive Reply : Type :=
  | Answer (r : Response)
  | Failure (what : string).

End Httpx.
Export Httpx.

(** ** Exceptions *)

(** Modelled from the spec: [dj_brevo.exceptions] is not among the sources.
    The four error kinds of the taxonomy; the three API errors carry the
    message, the HTTP status code and the parsed response body, as the
    keyword arguments at their raise sites show.  [ValueError],
    [RecursionError], [AttributeError] and [TransportError] are the
    exceptions of Python and of the HTTP library that the client's code can
    meet. *)
Inductive exn : Type :=
  | BrevoConfigError (message : string)
  | BrevoAuthError (message : pyval) (status : Z) (response_data : pyval)
  | BrevoRateLimitError (message : pyval) (status : Z) (response_data : pyval)
  | BrevoAPIError (message : pyval) (status : Z) (response_data : pyval)
  | ValueError
  | RecursionError
  | AttributeError (attr : string)
  | TransportError (what : string).

Definition is_ValueError (e : exn) : bool :=
  match e with
  | ValueError => true
  | _ => false
  end.

(** ** Settings *)

(** Modelled from the spec: [dj_brevo.settings] is not among the sources.
    The configuration surface: API_KEY (string, required), API_BASE_URL
    (string), TIMEOUT (numeric seconds), SANDBOX (boolean),
    DEFAULT_FROM_EMAIL (string, optional). *)
Record Settings : Type := mkSettings {
  API_KEY : option string;
  API_BASE_URL : string;
  TIMEOUT : Z;
  SANDBOX : bool;
  DEFAULT_FROM_EMAIL : option string;
}.

(** ** The world the client runs in *)

(** References to dictionary objects. *)
Abbreviation ref := positive.

Record World : Type := mkWorld {
  brevo_settings : Settings;
  heap : gmap positive (gmap string pyval);
  wire : list Request;
}.

Definition with_settings (s : Settings) (w : World) : World :=
  {| brevo_settings := s; heap := heap w; wire := wire w |}.

Definition with_heap (h : gmap positive (gmap string pyval)) (w : World) : World :=
  {| brevo_settings := brevo_settings w; heap := h; wire := wire w |}.

Definition with_wire (l : list Request) (w : World) : World :=
  {| brevo_settings := brevo_settings w; heap := heap w; wire := l |}.

(** ** The monad: state and exceptions *)

Inductive Result (A : Type) : Type :=
  | Ok (a : A)
  | Raise (e : exn).
Arguments Ok {A} a.
Arguments Raise {A} e.

Definition M (A : Type) : Type := World → Result A * World.

#[export] Instance M_ret : MRet M := λ A a w, (Ok a, w).

#[export] Instance M_bind : MBind M := λ A B f m w,
  match m w with
  | (Ok a, w') => f a w'
  | (Raise e, w') => (Raise e, w')
  end.

Definition raise {A : Type} (e : exn) : M A := λ w, (Raise e, w).

(** [try: body / except E: handler] for the exceptions selected by
    [catches]. *)
Definition try_except {A : Type} (body : M A) (catches : exn → bool)
    (handler : M A) : M A := λ w,
  match body w with
  | (Ok a, w') => (Ok a, w')
  | (Raise e, w') => if catches e then handler w' else (Raise e, w')
  end.

(** [if c: body], with no else branch. *)
Definition when (c : bool) (body : M unit) : M unit :=
  if c then body else mret tt.

(** Attribute access on the module-level [brevo_settings] object. *)
Definition getattr_settings {A : Type} (field : Settings → A) : M A :=
  λ w, (Ok (field (brevo_settings w)), w).

(** A dictionary display [{...}]: a new object, distinct from all others. *)
Definition dict_new (d : gmap string pyval) : M ref := λ w,
  let l := fresh (dom (heap w)) in
  (Ok l, with_heap (<[l := d]> (heap w)) w).

(** [payload[k] = v].  References come from [dict_new], so they are
    allocated; on any other reference the store is left as it is. *)
Definition dict_setitem (l : ref) (k : string) (v : pyval) : M unit := λ w,
  (Ok tt, with_heap (alter (insert k v) l (heap w)) w).

(** The content of the dictionary object at [l]. *)
Definition deref (w : World) (l : ref) : gmap string pyval :=
  default ∅ (heap w !! l).

(** [data.get(k, default)]: only dictionaries have the method. *)
Definition py_get (data : pyval) (k : string) (dflt : pyval) : M pyval :=
  match data with
  | PDict d => mret (default dflt (d !! k))
  | _ => raise (AttributeError "get")
  end.

(** [response.json()]. *)
Definition Response_json (response : Response) : M pyval :=
  match json response with
  | Decodes v => mret v
  | NotJSON => raise ValueError
  | TooDeep => raise RecursionError
  end.

(** ** The client *)

Module BrevoClient.

(** The state an instance captures in [__init__]. *)
Record t : Type := mk {
  api_key : string;
  base_url : string;
  timeout : Z;
  sandbox : bool;
}.

Section Methods.

(** The network behind [httpx.post]. *)
Variable transport : Request → Reply.

(** [httpx.post(url, json=payload, headers=headers, timeout=timeout)]: the
    request goes out with the payload as it is at this moment. *)
Definition httpx_post (url : string) (payload : ref)
    (headers : gmap string string) (tmo : Z) : M Response := λ w,
  let rq := mkRequest url (deref w payload) headers tmo in
  let w' := with_wire (wire w ++ [rq]) w in
  match transport rq with
  | Answer r => (Ok r, w')
  | Failure what => (Raise (TransportError what), w')
  end.

Definition __init__ (key : option string) : M t :=
  key' ← match key with
         | Some k => if bool_decide (k = "") then getattr_settings API_KEY
                     else mret (Some k)
         | None => getattr_settings API_KEY
         end;
  match key' with
  | Some k =>
      if bool_decide (k = "") then
        raise (BrevoConfigError
          "Brevo API key not configured.Set DJ_BREVO['API_KEY'] in your Django settings")
      else
        url ← getattr_settings API_BASE_URL;
        tmo ← getattr_settings TIMEOUT;
        sbx ← getattr_settings SANDBOX;
        mret (mk k url tmo sbx)
  | None =>
      raise (BrevoConfigError
        "Brevo API key not configured.Set DJ_BREVO['API_KEY'] in your Django settings")
  end.

Definition _get_headers (self : t) : gmap string string :=
  {[ "api-key" := api_key self;
     "Content-Type" := "application/json"%string;
     "Accept" := "application/json"%string ]}.

Definition _apply_sandbox (self : t) (payload : ref) : M ref :=
  when (sandbox self)
    (dict_setitem payload "headers"
       (PDict {[ "X-Sib-Sandbox" := PStr "drop" ]}));;
  mret payload.

Definition _handle_response (self : t) (response : Response) : M pyval :=
  data ← try_except (Response_json response) is_ValueError (mret (PDict ∅));
  if is_success response then mret data
  else
    message ← py_get data "message" (PStr (text response));
    if bool_decide (status_code response = 401) then
      raise (BrevoAuthError message 401 data)
    else if bool_decide (status_code response = 429) then
      raise (BrevoRateLimitError message 429 data)
    else
      raise (BrevoAPIError message (status_code response) data).

Definition _post (self : t) (endpoint : string) (payload : ref) : M pyval :=
  let url := (base_url self ++ endpoint)%string in
  response ← httpx_post url payload (_get_headers self) (timeout self);
  _handle_response self response.

Definition send_email (self : t)
    (to subject html_content sender text_content reply_to cc bcc : pyval)
    : M pyval :=
  sender ← (if is_None sender then
              default_email ← getattr_settings DEFAULT_FROM_EMAIL;
              if negb (truthy (of_opt_str default_email)) then
                raise (BrevoConfigError
                  "No sender provided and DJ_BREVO['DEFAULT_FROM_EMAIL'] not set.")
              else mret (PDict {[ "email" := of_opt_str default_email ]})
            else mret sender);
  payload ← dict_new {[ "sender" := sender;
                        "to" := to;
                        "subject" := subject;
                        "htmlContent" := html_content ]};
  when (truthy text_content)
    (dict_setitem payload "textContent" text_content);;
  when (truthy reply_to) (dict_setitem payload "replyTo" reply_to);;
  when (truthy cc) (dict_setitem payload "cc" cc);;
  when (truthy bcc) (dict_setitem payload "bcc" bcc);;
  payload' ← _apply_sandbox self payload;
  _post self "/smtp/email" payload'.

Definition send_template_email (self : t)
    (to template_id params sender reply_to cc bcc : pyval) : M pyval :=
  payload ← dict_new {[ "to" := to; "templateId" := template_id ]};
  when (truthy params) (dict_setitem payload "params" params);;
  when (truthy sender) (dict_setitem payload "sender" sender);;
  when (truthy reply_to) (dict_setitem payload "replyTo" reply_to);;
  when (truthy cc) (dict_setitem payload "cc" cc);;
  when (truthy bcc) (dict_setitem payload "bcc" bcc);;
  payload' ← _apply_sandbox self payload;
  _post self "/smtp/email" payload'.

End Methods.

End BrevoClient.

(** ** Reasoning about runs *)

Section Runs.

Import BrevoClient.

Variable transport : Request → Reply.

Lemma bind_run {A B : Type} (m : M A) (f : A → M B) (w : World) :
  (m ≫= f) w =
  match m w with
  | (Ok a, w') => f a w'
  | (Raise e, w') => (Raise e, w')
  end.
Proof. reflexivity. Qed.

(** The effect of a guarded item assignment on a dictionary's content. *)
Definition set_if (c : bool) (k : string) (v : pyval)
    (d : gmap string pyval) : gmap string pyval :=
  if c then <[k := v]> d else d.

Lemma lookup_set_if (c : bool) (k k' : string) (v : pyval)
    (d : gmap string pyval) :
  set_if c k v d !! k' =
  if c && bool_decide (k = k') then Some v else d !! k'.
Proof.
  destruct c; simpl; [|done].
  rewrite lookup_insert. by repeat case_decide; case_bool_decide.
Qed.

Lemma when_setitem_run (c : bool) (l : ref) (k : string) (v : pyval)
    (d : gmap string pyval) (h : gmap positive (gmap string pyval))
    (w : World) :
  when c (dict_setitem l k v) (with_heap (<[l := d]> h) w) =
  (Ok tt, with_heap (<[l := set_if c k v d]> h) w).
Proof.
  destruct c; simpl; [|done].
  unfold dict_setitem, with_heap; simpl. by rewrite alter_insert_eq.
Qed.

Lemma _apply_sandbox_run (self : t) (l : ref) (d : gmap string pyval)
    (h : gmap positive (gmap string pyval)) (w : World) :
  _apply_sandbox self l (with_heap (<[l := d]> h) w) =
  (Ok l, with_heap
     (<[l := set_if (sandbox self) "headers"
               (PDict {[ "X-Sib-Sandbox" := PStr "drop" ]}) d]> h) w).
Proof.
  unfold _apply_sandbox. rewrite bind_run, when_setitem_run. done.
Qed.

Lemma _post_run (self : t) (endpoint : string) (l : ref) (w : World) :
  _post transport self endpoint l w =
  let rq := mkRequest (base_url self ++ endpoint) (deref w l)
              (_get_headers self) (timeout self) in
  let w' := with_wire (wire w ++ [rq]) w in
  match transport rq with
  | Answer r => _handle_response self r w'
  | Failure what => (Raise (TransportError what), w')
  end.
Proof.
  unfold _post. rewrite bind_run. unfold httpx_post. simpl.
  by destruct (transport _).
Qed.

Lemma deref_alloc (l : ref) (d : gmap string pyval)
    (h : gmap positive (gmap string pyval)) (w : World) :
  deref (with_heap (<[l := d]> h) w) l = d.
Proof. unfold deref; simpl. by rewrite lookup_insert_eq. Qed.

Lemma send_email_run (self : t)
    (to subject html_content sender text_content reply_to cc bcc : pyval)
    (w : World) :
  send_email transport self to subject html_content sender text_content
    reply_to cc bcc w =
  let dflt := of_opt_str (DEFAULT_FROM_EMAIL (brevo_settings w)) in
  if is_None sender && negb (truthy dflt) then
    (Raise (BrevoConfigError
       "No sender provided and DJ_BREVO['DEFAULT_FROM_EMAIL'] not set."), w)
  else
    let s := if is_None sender then PDict {[ "email" := dflt ]} else sender in
    let l := fresh (dom (heap w)) in
    let d :=
      set_if (sandbox self) "headers"
        (PDict {[ "X-Sib-Sandbox" := PStr "drop" ]})
        (set_if (truthy bcc) "bcc" bcc
           (set_if (truthy cc) "cc" cc
              (set_if (truthy reply_to) "replyTo" reply_to
                 (set_if (truthy text_content) "textContent" text_content
                    {[ "sender" := s; "to" := to; "subject" := subject;
                       "htmlContent" := html_content ]})))) in
    _post transport self "/smtp/email" l (with_heap (<[l := d]> (heap w)) w).
Proof.
  unfold send_email. rewrite bind_run.
  destruct (is_None sender); simpl.
  - rewrite bind_run. unfold getattr_settings at 1.
    destruct (truthy (of_opt_str _)); simpl; [|done].
    unfold dict_new at 1.
    rewrite !bind_run, !when_setitem_run.
    rewrite bind_run, !when_setitem_run.
    rewrite bind_run, !when_setitem_run.
    rewrite bind_run, !when_setitem_run.
    by rewrite bind_run, _apply_sandbox_run.
  - unfold dict_new at 1.
    rewrite !bind_run, !when_setitem_run.
    rewrite bind_run, !when_setitem_run.
    rewrite bind_run, !when_setitem_run.
    rewrite bind_run, !when_setitem_run.
    by rewrite bind_run, _apply_sandbox_run.
Qed.

Lemma send_template_email_run (self : t)
    (to template_id params sender reply_to cc bcc : pyval) (w : World) :
  send_template_email transport self to template_id params sender reply_to
    cc bcc w =
  let l := fresh (dom (heap w)) in
  let d :=
    set_if (sandbox self) "headers"
      (PDict {[ "X-Sib-Sandbox" := PStr "drop" ]})
      (set_if (truthy bcc) "bcc" bcc
         (set_if (truthy cc) "cc" cc
            (set_if (truthy reply_to) "replyTo" reply_to
               (set_if (truthy sender) "sender" sender
                  (set_if (truthy params) "params" params
                     {[ "to" := to; "templateId" := template_id ]}))))) in
  _post transport self "/smtp/email" l (with_heap (<[l := d]> (heap w)) w).
Proof.
  unfold send_template_email. unfold dict_new at 1.
  rewrite !bind_run, !when_setitem_run.
  rewrite bind_run, !when_setitem_run.
  rewrite bind_run, !when_setitem_run.
  rewrite bind_run, !when_setitem_run.
  rewrite bind_run, !when_setitem_run.
  by rewrite bind_run, _apply_sandbox_run.
Qed.

Lemma lookup_set_if_eq (c : bool) (k : string) (v : pyval)
    (d : gmap string pyval) :
  set_if c k v d !! k = if c then Some v else d !! k.
Proof. destruct c; simpl; [|done]. apply lookup_insert_eq. Qed.

Lemma lookup_set_if_ne (c : bool) (k k' : string) (v : pyval)
    (d : gmap string pyval) :
  k ≠ k' → set_if c k v d !! k' = d !! k'.
Proof. intros. destruct c; simpl; [|done]. by apply lookup_insert_ne. Qed.

Lemma is_None_true (v : pyval) : is_None v = true ↔ v = PNone.
Proof. by destruct v. Qed.

Lemma is_None_false (v : pyval) : is_None v = false ↔ v ≠ PNone.
Proof. by destruct v. Qed.

Lemma truthy_of_opt_str (o : option string) :
  truthy (of_opt_str o) = true ↔ ∃ e, o = Some e ∧ e ≠ "".
Proof.
  destruct o as [e|]; simpl.
  - rewrite negb_true_iff, bool_decide_eq_false. split.
    + intros He. by exists e.
    + by intros (e' & [= <-] & He).
  - split; [done|]. by intros (e & He & _).
Qed.

Lemma _handle_response_run (self : t) (r : Response) (w : World) :
  _handle_response self r w =
  let handled (data : pyval) :=
    if is_success r then (Ok data, w)
    else
      match data with
      | PDict d =>
          let message := default (PStr (text r)) (d !! "message") in
          if bool_decide (status_code r = 401) then
            (Raise (BrevoAuthError message 401 data), w)
          else if bool_decide (status_code r = 429) then
            (Raise (BrevoRateLimitError message 429 data), w)
          else (Raise (BrevoAPIError message (status_code r) data), w)
      | _ => (Raise (AttributeError "get"), w)
      end in
  match json r with
  | Decodes v => handled v
  | NotJSON => handled (PDict ∅)
  | TooDeep => (Raise RecursionError, w)
  end.
Proof.
  unfold _handle_response, try_except, Response_json. rewrite bind_run.
  destruct (json r) as [data| |]; simpl; [| |done].
  - destruct (is_success r); [done|].
    destruct data; try done.
    rewrite bind_run; simpl. by repeat case_bool_decide.
  - destruct (is_success r); [done|].
    rewrite bind_run; simpl. by repeat case_bool_decide.
Qed.

(** The handler only computes a result: the world stays as it is, and the
    result is the same in every world. *)
Lemma _handle_response_pure (self : t) (r : Response) (w w' : World) :
  _handle_response self r w = ((_handle_response self r w').1, w).
Proof.
  rewrite !_handle_response_run; cbv zeta.
  destruct (json r) as [data| |]; [| |done].
  - destruct (is_success r); [done|].
    destruct data; try done. by repeat case_bool_decide.
  - destruct (is_success r); [done|]. by repeat case_bool_decide.
Qed.

Lemma _handle_response_world (self : t) (r : Response) (w : World) :
  (_handle_response self r w).2 = w.
Proof. by rewrite (_handle_response_pure self r w w). Qed.

Lemma _handle_response_not_config (self : t) (r : Response) (w : World)
    (msg : string) :
  (_handle_response self r w).1 ≠ Raise (BrevoConfigError msg).
Proof.
  rewrite _handle_response_run; cbv zeta.
  destruct (json r) as [data| |]; [| |done].
  - destruct (is_success r); [done|].
    destruct data; try done. by repeat case_bool_decide.
  - destruct (is_success r); [done|]. by repeat case_bool_decide.
Qed.

Lemma is_success_true (r : Response) :
  is_success r = true ↔ 200 ≤ status_code r ≤ 299.
Proof. unfold is_success. rewrite andb_true_iff, !Z.leb_le. done. Qed.

Lemma is_success_false (r : Response) :
  is_success r = false ↔ status_code r < 200 ∨ 299 < status_code r.
Proof.
  rewrite <-not_true_iff_false, is_success_true. lia.
Qed.

End Runs.

(** ** Properties of the client *)

(** A body of 100000 opening brackets: not JSON, and nested beyond what the
    decoder's recursion can follow. *)
Fixpoint brackets (n : nat) : string :=
  match n with
  | O => EmptyString
  | S n' => ("[" ++ brackets n')%string
  end.

Definition deep_body : string := brackets (Z.to_nat 100000).

Ltac payload_lookup :=
  repeat first
    [ rewrite lookup_set_if_eq
    | rewrite lookup_set_if_ne by done
    | rewrite lookup_insert_eq
    | rewrite lookup_insert_ne by done
    | rewrite lookup_singleton_eq
    | rewrite lookup_singleton_ne by done ].

Section Properties.

Import BrevoClient.

Variable transport : Request → Reply.

(** What [_post] leaves on the wire: exactly one more request, carrying the
    content of the payload object. *)
Lemma _post_wire (self : t) (endpoint : string) (l : ref) (w : World) :
  wire (_post transport self endpoint l w).2 =
  wire w ++ [mkRequest (base_url self ++ endpoint) (deref w l)
               (_get_headers self) (timeout self)].
Proof.
  rewrite _post_run; simpl. destruct (transport _); [|done].
  by rewrite _handle_response_world.
Qed.

(** C2: a raw-content send whose sender is resolved (given explicitly, or
    taken from a non-empty default) dispatches a payload that has the keys
    [sender], [to], [subject] and [htmlContent], and that has [textContent],
    [replyTo], [cc], [bcc] exactly when the corresponding argument is truthy,
    then with the argument as value; a falsy argument (None, empty string,
    empty list) leaves the key absent. *)
Theorem send_email_payload_keys (self : t)
    (to subject html_content sender text_content reply_to cc bcc : pyval)
    (w : World) :
  sender ≠ PNone ∨
    (∃ e, DEFAULT_FROM_EMAIL (brevo_settings w) = Some e ∧ e ≠ "") →
  ∃ rq : Request,
    wire (send_email transport self to subject html_content sender
            text_content reply_to cc bcc w).2 = wire w ++ [rq] ∧
    is_Some (rq_json rq !! "sender") ∧
    (sender ≠ PNone → rq_json rq !! "sender" = Some sender) ∧
    rq_json rq !! "to" = Some to ∧
    rq_json rq !! "subject" = Some subject ∧
    rq_json rq !! "htmlContent" = Some html_content ∧
    rq_json rq !! "textContent" =
      (if truthy text_content then Some text_content else None) ∧
    rq_json rq !! "replyTo" =
      (if truthy reply_to then Some reply_to else None) ∧
    rq_json rq !! "cc" = (if truthy cc then Some cc else None) ∧
    rq_json rq !! "bcc" = (if truthy bcc then Some bcc else None).
Proof.
  intros Hsender. rewrite send_email_run; cbv zeta.
  replace (is_None sender && _) with false; last first.
  { symmetry. apply andb_false_iff. destruct Hsender as [Hs|Hd].
    - left. by apply is_None_false.
    - right. apply negb_false_iff. by apply truthy_of_opt_str. }
  rewrite _post_wire, deref_alloc; simpl.
  eexists. split; [done|]; simpl.
  repeat split; payload_lookup; try done.
  intros Hs. apply is_None_false in Hs. by rewrite Hs.
Qed.

(** The values the optional arguments of C2 and C6 count as not supplied. *)
Lemma truthy_not_supplied :
  truthy PNone = false ∧ truthy (PStr "") = false ∧
  truthy (PList []) = false ∧ truthy (PDict ∅) = false.
Proof. done. Qed.

(** C3: whatever either operation dispatches has no [headers] key when the
    client's sandbox flag is off, and [headers] equal to
    [{"X-Sib-Sandbox": "drop"}] when it is on.  A raw-content send dispatches
    nothing at all when the sender cannot be resolved; every other call
    dispatches exactly one request. *)
Theorem sandbox_headers_on_dispatch (self : t) :
  let expected :=
    if sandbox self then Some (PDict {[ "X-Sib-Sandbox" := PStr "drop" ]})
    else None in
  (∀ (to subject html_content sender text_content reply_to cc bcc : pyval)
     (w : World),
     let w' := (send_email transport self to subject html_content sender
                  text_content reply_to cc bcc w).2 in
     wire w' = wire w ∨
     ∃ rq, wire w' = wire w ++ [rq] ∧ rq_json rq !! "headers" = expected) ∧
  (∀ (to template_id params sender reply_to cc bcc : pyval) (w : World),
     let w' := (send_template_email transport self to template_id params
                  sender reply_to cc bcc w).2 in
     ∃ rq, wire w' = wire w ++ [rq] ∧ rq_json rq !! "headers" = expected).
Proof.
  split.
  - intros. subst w'. rewrite send_email_run; cbv zeta.
    destruct (is_None sender && _); [by left|]. right.
    rewrite _post_wire, deref_alloc; simpl.
    eexists. split; [done|]; simpl. by payload_lookup.
  - intros. subst w'. rewrite send_template_email_run; cbv zeta.
    rewrite _post_wire, deref_alloc; simpl.
    eexists. split; [done|]; simpl. by payload_lookup.
Qed.

(** C4: a raw-content send without a sender argument takes the sender from
    the settings' DEFAULT_FROM_EMAIL: a non-empty default [e] gives the
    payload the sender [{"email": e}]; a missing or empty default makes the
    call raise BrevoConfigError and leaves the world as it was, so that
    nothing has gone out. *)
Theorem send_email_default_sender (self : t)
    (to subject html_content text_content reply_to cc bcc : pyval)
    (w : World) :
  let run := send_email transport self to subject html_content PNone
               text_content reply_to cc bcc w in
  (∀ e, DEFAULT_FROM_EMAIL (brevo_settings w) = Some e → e ≠ "" →
     ∃ rq, wire run.2 = wire w ++ [rq] ∧
       rq_json rq !! "sender" = Some (PDict {[ "email" := PStr e ]})) ∧
  (DEFAULT_FROM_EMAIL (brevo_settings w) = None ∨
   DEFAULT_FROM_EMAIL (brevo_settings w) = Some "" →
     run = (Raise (BrevoConfigError
              "No sender provided and DJ_BREVO['DEFAULT_FROM_EMAIL'] not set."),
            w)).
Proof.
  intros run. subst run. rewrite send_email_run; cbv zeta. split.
  - intros e He Hne. rewrite He; simpl.
    rewrite bool_decide_eq_false_2 by done; simpl.
    rewrite _post_wire, deref_alloc; simpl.
    eexists. split; [done|]; simpl. by payload_lookup.
  - by intros [-> | ->].
Qed.

(** C6: a template send always dispatches one request; its payload has [to]
    and [templateId], has [params], [sender], [replyTo], [cc], [bcc] exactly
    when the corresponding argument is truthy, and the settings play no part:
    without a sender argument there is no [sender] key, and the call never
    raises BrevoConfigError. *)
Theorem send_template_email_payload_keys (self : t)
    (to template_id params sender reply_to cc bcc : pyval) (w : World) :
  let run := send_template_email transport self to template_id params sender
               reply_to cc bcc w in
  (∃ rq : Request,
     wire run.2 = wire w ++ [rq] ∧
     rq_json rq !! "to" = Some to ∧
     rq_json rq !! "templateId" = Some template_id ∧
     rq_json rq !! "params" = (if truthy params then Some params else None) ∧
     rq_json rq !! "sender" = (if truthy sender then Some sender else None) ∧
     rq_json rq !! "replyTo" =
       (if truthy reply_to then Some reply_to else None) ∧
     rq_json rq !! "cc" = (if truthy cc then Some cc else None) ∧
     rq_json rq !! "bcc" = (if truthy bcc then Some bcc else None)) ∧
  (∃ rq : Request,
     wire (send_template_email transport self to template_id params PNone
             reply_to cc bcc w).2 = wire w ++ [rq] ∧
     rq_json rq !! "sender" = None) ∧
  (∀ msg, run.1 ≠ Raise (BrevoConfigError msg)).
Proof.
  intros run. subst run. repeat split.
  - rewrite send_template_email_run; cbv zeta.
    rewrite _post_wire, deref_alloc; simpl.
    eexists. split; [done|]; simpl. repeat split; by payload_lookup.
  - rewrite send_template_email_run; cbv zeta.
    rewrite _post_wire, deref_alloc; simpl.
    eexists. split; [done|]; simpl. by payload_lookup.
  - intros msg. rewrite send_template_email_run; cbv zeta.
    rewrite _post_run; cbv zeta. destruct (transport _); [|done].
    apply _handle_response_not_config.
Qed.

(** C1: on a non-2xx response whose body decodes to JSON that is not an
    object the handler raises neither of the typed errors: the lookup of
    [message] fails with AttributeError.  Here a 401 with body [[]]. *)
Theorem handle_response_non_object_body (self : t) (w : World) :
  _handle_response self (mkResponse 401 "[]" (Decodes (PList []))) w =
  (Raise (AttributeError "get"), w).
Proof. by rewrite _handle_response_run. Qed.

(** The error taxonomy on the bodies the handler is prepared for: a body
    that is not JSON, or one that decodes to an object. *)
Lemma handle_response_taxonomy (self : t) (r : Response) (w : World)
    (d : gmap string pyval) :
  json r = NotJSON ∧ d = ∅ ∨ json r = Decodes (PDict d) →
  status_code r < 200 ∨ 299 < status_code r →
  let message := default (PStr (text r)) (d !! "message") in
  _handle_response self r w =
  (Raise (if bool_decide (status_code r = 401) then
            BrevoAuthError message 401 (PDict d)
          else if bool_decide (status_code r = 429) then
            BrevoRateLimitError message 429 (PDict d)
          else BrevoAPIError message (status_code r) (PDict d)), w).
Proof.
  intros Hbody Hstatus message. subst message.
  rewrite _handle_response_run; cbv zeta.
  apply is_success_false in Hstatus.
  destruct Hbody as [[-> ->] | ->]; rewrite Hstatus; simpl;
    by repeat case_bool_decide.
Qed.

(** C7: a body that fails to parse because it nests too deep fails with
    RecursionError, which is no ValueError: the handler's fallback to the
    empty mapping does not apply, and the parse failure reaches the caller in
    the place of the typed error of the status code.  Here a 502 whose body
    is 100000 opening brackets. *)
Theorem handle_response_deep_body_escapes (self : t) (w : World) :
  _handle_response self (mkResponse 502 deep_body TooDeep) w =
  (Raise RecursionError, w).
Proof. by rewrite _handle_response_run. Qed.

(** X12: a response whose body makes [response.json()] raise ValueError is
    handled with the empty mapping as body.  With a 2xx status the handler
    returns the empty mapping; otherwise it raises the typed error of the
    status code, with the response text as message and the empty mapping as
    body.  The ValueError itself never reaches the caller. *)
Theorem handle_response_malformed_body (self : t) (r : Response) (w : World) :
  json r = NotJSON →
  let run := _handle_response self r w in
  (200 ≤ status_code r ≤ 299 → run = (Ok (PDict ∅), w)) ∧
  (status_code r = 401 →
     run = (Raise (BrevoAuthError (PStr (text r)) 401 (PDict ∅)), w)) ∧
  (status_code r = 429 →
     run = (Raise (BrevoRateLimitError (PStr (text r)) 429 (PDict ∅)), w)) ∧
  (status_code r < 200 ∨ 299 < status_code r →
   status_code r ≠ 401 → status_code r ≠ 429 →
     run = (Raise (BrevoAPIError (PStr (text r)) (status_code r) (PDict ∅)),
            w)) ∧
  run.1 ≠ Raise ValueError.
Proof.
  intros Hjson run. subst run. repeat split.
  - intros Hs. apply is_success_true in Hs.
    by rewrite _handle_response_run, Hjson, Hs.
  - intros Hs.
    rewrite (handle_response_taxonomy self r w ∅) by (auto; lia).
    by rewrite bool_decide_eq_true_2.
  - intros Hs.
    rewrite (handle_response_taxonomy self r w ∅) by (auto; lia).
    rewrite bool_decide_eq_false_2 by lia. by rewrite bool_decide_eq_true_2.
  - intros Hs H401 H429.
    rewrite (handle_response_taxonomy self r w ∅) by auto.
    by rewrite !bool_decide_eq_false_2.
  - rewrite _handle_response_run, Hjson; simpl.
    destruct (is_success r); [done|]. by repeat case_bool_decide.
Qed.

(** X13: when the network answers a send with a 2xx response whose body
    makes [response.json()] raise ValueError, both operations return the
    empty mapping.  A raw-content send gets that far when its sender is
    resolved. *)
Theorem send_unparsable_success_returns_empty (r : Response) :
  (∀ rq, transport rq = Answer r) →
  200 ≤ status_code r ≤ 299 →
  json r = NotJSON →
  (∀ (self : t)
     (to subject html_content sender text_content reply_to cc bcc : pyval)
     (w : World),
     sender ≠ PNone ∨
       (∃ e, DEFAULT_FROM_EMAIL (brevo_settings w) = Some e ∧ e ≠ "") →
     (send_email transport self to subject html_content sender text_content
        reply_to cc bcc w).1 = Ok (PDict ∅)) ∧
  (∀ (self : t) (to template_id params sender reply_to cc bcc : pyval)
     (w : World),
     (send_template_email transport self to template_id params sender
        reply_to cc bcc w).1 = Ok (PDict ∅)).
Proof.
  intros Hnet Hs Hjson. apply is_success_true in Hs. split.
  - intros * Hsender. rewrite send_email_run; cbv zeta.
    replace (is_None sender && _) with false; last first.
    { symmetry. apply andb_false_iff. destruct Hsender as [Hn|Hd].
      - left. by apply is_None_false.
      - right. apply negb_false_iff. by apply truthy_of_opt_str. }
    rewrite _post_run; cbv zeta.
    by rewrite Hnet, _handle_response_run, Hjson, Hs.
  - intros. rewrite send_template_email_run; cbv zeta.
    rewrite _post_run; cbv zeta.
    by rewrite Hnet, _handle_response_run, Hjson, Hs.
Qed.

(** C5: construction takes the API key from the argument when that is a
    non-empty string and otherwise from the settings.  With no non-empty key
    from either it raises BrevoConfigError and leaves the world as it was;
    otherwise it returns the client holding the key and the settings' base
    URL, timeout and sandbox flag as they are at that moment.  Nothing goes
    out either way. *)
Theorem init_resolves_key_or_fails (key : option string) (w : World) :
  let s := brevo_settings w in
  (∀ k, key = Some k → k ≠ "" →
     __init__ key w =
     (Ok (mk k (API_BASE_URL s) (TIMEOUT s) (SANDBOX s)), w)) ∧
  (∀ k, key = None ∨ key = Some "" → API_KEY s = Some k → k ≠ "" →
     __init__ key w =
     (Ok (mk k (API_BASE_URL s) (TIMEOUT s) (SANDBOX s)), w)) ∧
  (key = None ∨ key = Some "" → API_KEY s = None ∨ API_KEY s = Some "" →
     __init__ key w =
     (Raise (BrevoConfigError
        "Brevo API key not configured.Set DJ_BREVO['API_KEY'] in your Django settings"),
      w)) ∧
  wire (__init__ key w).2 = wire w.
Proof.
  intros s. subst s. unfold __init__. repeat split.
  - intros k -> Hk. rewrite bind_run.
    rewrite bool_decide_eq_false_2 by done; simpl.
    by rewrite bool_decide_eq_false_2.
  - intros k Hkey Hcfg Hk. rewrite bind_run.
    destruct Hkey as [-> | ->]; simpl; unfold getattr_settings at 1;
      rewrite Hcfg; by rewrite bool_decide_eq_false_2.
  - intros Hkey Hcfg. rewrite bind_run.
    destruct Hkey as [-> | ->]; simpl; unfold getattr_settings at 1;
      by destruct Hcfg as [-> | ->].
  - rewrite bind_run.
    destruct key as [k|]; [destruct (bool_decide (k = ""))|]; simpl;
      try (destruct (API_KEY _) as [k'|]; [|done]);
      by repeat case_bool_decide.
Qed.

(** C9: [_apply_sandbox] returns the reference it was given.  Keys other than
    [headers] of that dictionary, and all other dictionaries, read as before;
    with the sandbox flag on the dictionary's [headers] becomes
    [{"X-Sib-Sandbox": "drop"}], with the flag off the world is left exactly
    as it was. *)
Theorem apply_sandbox_in_place (self : t) (payload : ref) (w : World) :
  let run := _apply_sandbox self payload w in
  run.1 = Ok payload ∧
  (∀ k, k ≠ "headers" → deref run.2 payload !! k = deref w payload !! k) ∧
  (∀ l, l ≠ payload → heap run.2 !! l = heap w !! l) ∧
  dom (heap run.2) = dom (heap w) ∧
  (sandbox self = true → ∀ d, heap w !! payload = Some d →
     heap run.2 !! payload =
     Some (<["headers" := PDict {[ "X-Sib-Sandbox" := PStr "drop" ]}]> d)) ∧
  (sandbox self = false → run.2 = w).
Proof.
  intros run. subst run. unfold _apply_sandbox. rewrite bind_run.
  destruct (sandbox self); simpl.
  - split; [done|]. split; [|split; [|split; [|split]]].
    + intros k Hk. unfold deref; simpl. rewrite lookup_alter_eq.
      destruct (heap w !! payload); simpl; [|done].
      by rewrite lookup_insert_ne.
    + intros l Hl. by rewrite lookup_alter_ne.
    + apply dom_alter_L.
    + intros _ d Hd. by rewrite lookup_alter_eq, Hd.
    + done.
  - by repeat split.
Qed.

(** C8, as the code has it: the settings object is consulted during a call
    in one place only, the DEFAULT_FROM_EMAIL lookup of a raw-content send
    without a sender.  A template send, and a raw-content send with a
    sender, run the same whatever the settings currently are; a raw-content
    send without a sender runs the same on settings with the same
    DEFAULT_FROM_EMAIL. *)
Theorem calls_use_captured_state (self : t) (w : World) (s : Settings)
    (to sender reply_to cc bcc : pyval) :
  (∀ template_id params,
     send_template_email transport self to template_id params sender
       reply_to cc bcc (with_settings s w) =
     let run := send_template_email transport self to template_id params
                  sender reply_to cc bcc w in
     (run.1, with_settings s run.2)) ∧
  (∀ subject html_content text_content,
     sender ≠ PNone ∨
       DEFAULT_FROM_EMAIL s = DEFAULT_FROM_EMAIL (brevo_settings w) →
     send_email transport self to subject html_content sender text_content
       reply_to cc bcc (with_settings s w) =
     let run := send_email transport self to subject html_content sender
                  text_content reply_to cc bcc w in
     (run.1, with_settings s run.2)).
Proof.
  assert (∀ l h, _post transport self "/smtp/email" l
                   (with_heap h (with_settings s w)) =
                 let run := _post transport self "/smtp/email" l
                              (with_heap h w) in
                 (run.1, with_settings s run.2)) as Hpost.
  { intros l h. rewrite !_post_run; cbv zeta. unfold deref; simpl.
    destruct (transport _); [|done].
    rewrite _handle_response_world.
    exact (_handle_response_pure self r _ _). }
  split.
  - intros. rewrite !send_template_email_run; cbv zeta. apply Hpost.
  - intros * Hsame. rewrite !send_email_run; cbv zeta. simpl brevo_settings.
    destruct (is_None sender) eqn:Hn; simpl; [|apply Hpost].
    destruct Hsame as [Hs|Hs].
    { by apply is_None_false in Hs; rewrite Hs in Hn. }
    rewrite Hs. destruct (truthy (of_opt_str _)); simpl; [|done].
    apply Hpost.
Qed.

End Properties.

(** ** The properties at work on concrete calls *)

Module Samples.

Import BrevoClient.

(** A network that accepts every message. *)
Definition accepting : Request → Reply :=
  λ _, Answer (mkResponse 200 "{'messageId': 'm1'}"
                 (Decodes (PDict {[ "messageId" := PStr "m1" ]}))).

(** A network behind a gateway that answers 200 with a page of HTML. *)
Definition garbling : Request → Reply :=
  λ _, Answer (mkResponse 200 "<html>ok</html>" NotJSON).

Definition no_default : Settings :=
  mkSettings (Some "test-key") "https://api.brevo.com/v3" 10 false None.

Definition with_default : Settings :=
  mkSettings (Some "test-key") "https://api.brevo.com/v3" 10 false
    (Some "noreply@b.com").

Definition no_key : Settings :=
  mkSettings None "https://api.brevo.com/v3" 10 false None.

Definition world (s : Settings) : World := mkWorld s ∅ [].

Definition client : t := mk "test-key" "https://api.brevo.com/v3" 10 false.

Definition recipients : pyval := PList [PDict {[ "email" := PStr "a@b.com" ]}].

Definition from : pyval := PDict {[ "email" := PStr "s@b.com" ]}.

(** A client in sandbox mode, and a world in which the dictionary object 1
    is a payload under construction. *)
Definition sandbox_client : t :=
  mk "test-key" "https://api.brevo.com/v3" 10 true.

Definition draft : gmap string pyval :=
  {[ "to" := recipients; "templateId" := PInt 42 ]}.

Definition drafted : World :=
  mkWorld no_default {[ 1%positive := draft ]} [].

(** A network that answers 200 with a body of 100000 opening brackets, on
    which [response.json()] raises RecursionError. *)
Definition nesting : Request → Reply :=
  λ _, Answer (mkResponse 200 deep_body TooDeep).

End Samples.

Import BrevoClient Samples.

(** C10: a 2xx response whose body is not valid JSON because it nests too
    deep makes [response.json()] raise RecursionError, which the fallback to
    the empty mapping does not cover: both operations raise instead of
    returning the empty mapping.  Here the network answers 200 with a body
    of 100000 opening brackets. *)
Theorem send_deep_success_body_raises (self : t)
    (to subject html_content text_content template_id params sender reply_to
       cc bcc : pyval) (w : World) :
  (send_email nesting self to subject html_content from text_content reply_to
     cc bcc w).1 = Raise RecursionError ∧
  (send_template_email nesting self to template_id params sender reply_to cc
     bcc w).1 = Raise RecursionError.
Proof.
  split.
  - rewrite send_email_run; cbv zeta. cbn [is_None from andb].
    rewrite _post_run; cbv zeta. unfold nesting.
    by rewrite _handle_response_run.
  - rewrite send_template_email_run; cbv zeta.
    rewrite _post_run; cbv zeta. unfold nesting.
    by rewrite _handle_response_run.
Qed.

Lemma send_email_payload_keys_witness :
  ∃ rq : Request,
    wire (send_email accepting client recipients (PStr "S") (PStr "<p>x</p>")
            from PNone PNone (PList []) PNone (world no_default)).2 = [rq] ∧
    rq_json rq !! "sender" = Some from ∧
    rq_json rq !! "textContent" = None ∧
    rq_json rq !! "cc" = None.
Proof.
  destruct (send_email_payload_keys accepting client recipients (PStr "S")
              (PStr "<p>x</p>") from PNone PNone (PList []) PNone
              (world no_default))
    as (rq & Hwire & _ & Hfrom & _ & _ & _ & Htext & _ & Hcc & _).
  { left. discriminate. }
  exists rq. split; [exact Hwire|]. split; [|split].
  - apply Hfrom. discriminate.
  - exact Htext.
  - exact Hcc.
Defined.

Lemma send_email_default_sender_witness :
  ∃ rq : Request,
    wire (send_email accepting client recipients (PStr "S") (PStr "<p>x</p>")
            PNone PNone PNone PNone PNone (world with_default)).2 =
    wire (world with_default) ++ [rq] ∧
    rq_json rq !! "sender" = Some (PDict {[ "email" := PStr "noreply@b.com" ]}).
Proof.
  apply (proj1 (send_email_default_sender accepting client recipients
                  (PStr "S") (PStr "<p>x</p>") PNone PNone PNone PNone
                  (world with_default)) "noreply@b.com").
  - reflexivity.
  - discriminate.
Defined.

Lemma init_resolves_key_or_fails_witness :
  __init__ None (world no_key) =
  (Raise (BrevoConfigError
     "Brevo API key not configured.Set DJ_BREVO['API_KEY'] in your Django settings"),
   world no_key).
Proof.
  apply (init_resolves_key_or_fails None (world no_key)).
  - left. reflexivity.
  - left. reflexivity.
Defined.

Lemma handle_response_malformed_body_witness :
  _handle_response client (mkResponse 502 "Bad Gateway" NotJSON)
    (world no_default) =
  (Raise (BrevoAPIError (PStr "Bad Gateway") 502 (PDict ∅)),
   world no_default).
Proof.
  apply (handle_response_malformed_body client
           (mkResponse 502 "Bad Gateway" NotJSON) (world no_default)).
  - reflexivity.
  - right. reflexivity.
  - discriminate.
  - discriminate.
Defined.

Lemma send_unparsable_success_returns_empty_witness :
  (send_email garbling client recipients (PStr "S") (PStr "<p>x</p>") from
     PNone PNone PNone PNone (world no_default)).1 = Ok (PDict ∅).
Proof.
  refine (proj1 (send_unparsable_success_returns_empty garbling
                   (mkResponse 200 "<html>ok</html>" NotJSON) _ _ _)
            client recipients (PStr "S") (PStr "<p>x</p>") from
            PNone PNone PNone PNone (world no_default) _).
  - intros rq. reflexivity.
  - simpl. lia.
  - reflexivity.
  - left. discriminate.
Defined.

Lemma apply_sandbox_in_place_witness :
  (_apply_sandbox sandbox_client 1%positive drafted).1 = Ok 1%positive ∧
  heap (_apply_sandbox sandbox_client 1%positive drafted).2 !! 1%positive =
    Some (<["headers" := PDict {[ "X-Sib-Sandbox" := PStr "drop" ]}]> draft) ∧
  deref (_apply_sandbox sandbox_client 1%positive drafted).2 1%positive
    !! "to" = Some recipients.
Proof.
  destruct (apply_sandbox_in_place sandbox_client 1%positive drafted)
    as (Hsame & Hkeys & _ & _ & Hmarked & _).
  split; [exact Hsame|]. split.
  - apply Hmarked; reflexivity.
  - rewrite Hkeys by discriminate. reflexivity.
Defined.

Lemma calls_use_captured_state_witness :
  send_email accepting client recipients (PStr "S") (PStr "<p>x</p>") from
    PNone PNone PNone PNone (with_settings with_default (world no_default)) =
  let run := send_email accepting client recipients (PStr "S")
               (PStr "<p>x</p>") from PNone PNone PNone PNone
               (world no_default) in
  (run.1, with_settings with_default run.2).
Proof.
  apply (calls_use_captured_state accepting client (world no_default)
           with_default recipients from PNone PNone PNone).
  left. discriminate.
Defined.

(** C8 fails as stated: the same client, called twice with the same
    arguments, raises BrevoConfigError under one settings object and sends
    under another, although what it captured at construction is the same. *)
Lemma default_sender_looked_up_mid_call :
  (send_email accepting client recipients (PStr "S") (PStr "<p>x</p>") PNone
     PNone PNone PNone PNone (world no_default)).1 ≠
  (send_email accepting client recipients (PStr "S") (PStr "<p>x</p>") PNone
     PNone PNone PNone PNone
     (with_settings with_default (world no_default))).1.
Proof. vm_compute. discriminate. Qed.

(** ** Further properties: requests, results and composition *)

(** What an API error carries; [None] for the other exceptions. *)
Definition error_status (e : exn) : option Z :=
  match e with
  | BrevoAuthError _ st _ | BrevoRateLimitError _ st _
  | BrevoAPIError _ st _ => Some st
  | _ => None
  end.

Definition error_message (e : exn) : option pyval :=
  match e with
  | BrevoAuthError m _ _ | BrevoRateLimitError m _ _
  | BrevoAPIError m _ _ => Some m
  | _ => None
  end.

Definition error_body (e : exn) : option pyval :=
  match e with
  | BrevoAuthError _ _ b | BrevoRateLimitError _ _ b
  | BrevoAPIError _ _ b => Some b
  | _ => None
  end.

(** The HTTP side of a request of [self]: where it goes, with which headers
    and under which timeout. *)
Definition envelope (self : BrevoClient.t) (rq : Request) : Prop :=
  rq_url rq = (BrevoClient.base_url self ++ "/smtp/email")%string ∧
  rq_timeout rq = BrevoClient.timeout self ∧
  rq_headers rq !! "api-key" = Some (BrevoClient.api_key self) ∧
  rq_headers rq !! "Content-Type" = Some "application/json"%string ∧
  rq_headers rq !! "Accept" = Some "application/json"%string ∧
  ∀ k, is_Some (rq_headers rq !! k) →
       k ∈ ["api-key"; "Content-Type"; "Accept"]%string.

Ltac split_key k s :=
  destruct (decide (k = s%string)) as [->|];
  [rewrite !elem_of_cons; tauto|].

Section Further.

Import BrevoClient.

Variable transport : Request → Reply.

Lemma _get_headers_envelope (self : t) (d : gmap string pyval) :
  envelope self
    (mkRequest (base_url self ++ "/smtp/email") d (_get_headers self)
       (timeout self)).
Proof.
  unfold envelope, _get_headers; simpl.
  repeat split; payload_lookup; try done.
  intros k [v Hv].
  split_key k "api-key". split_key k "Content-Type". split_key k "Accept".
  revert Hv. by payload_lookup.
Qed.

(** X1: every request of either operation is a request to the client's base
    URL followed by [/smtp/email], under the client's timeout, with the three
    headers [api-key] (the client's key), [Content-Type] and [Accept] (both
    [application/json]) and no other header: the sandbox marker travels in
    the JSON body only. *)
Theorem dispatched_request_envelope (self : t) :
  (∀ (to subject html_content sender text_content reply_to cc bcc : pyval)
     (w : World),
     let w' := (send_email transport self to subject html_content sender
                  text_content reply_to cc bcc w).2 in
     wire w' = wire w ∨
     ∃ rq, wire w' = wire w ++ [rq] ∧ envelope self rq) ∧
  (∀ (to template_id params sender reply_to cc bcc : pyval) (w : World),
     let w' := (send_template_email transport self to template_id params
                  sender reply_to cc bcc w).2 in
     ∃ rq, wire w' = wire w ++ [rq] ∧ envelope self rq).
Proof.
  split.
  - intros. subst w'. rewrite send_email_run; cbv zeta.
    destruct (is_None sender && _); [by left|]. right.
    rewrite _post_wire. eexists. split; [done|].
    apply _get_headers_envelope.
  - intros. subst w'. rewrite send_template_email_run; cbv zeta.
    rewrite _post_wire. eexists. split; [done|].
    apply _get_headers_envelope.
Qed.

Lemma sender_resolved (sender : pyval) (w : World) :
  sender ≠ PNone ∨
    (∃ e, DEFAULT_FROM_EMAIL (brevo_settings w) = Some e ∧ e ≠ "") →
  is_None sender &&
    negb (truthy (of_opt_str (DEFAULT_FROM_EMAIL (brevo_settings w)))) =
  false.
Proof.
  intros [Hs|Hd]; apply andb_false_iff.
  - left. by apply is_None_false.
  - right. apply negb_false_iff. by apply truthy_of_opt_str.
Qed.

(** X2: a transport-level failure of the one HTTP call reaches the caller as
    it is, after exactly one request: it is neither retried nor turned into
    one of the client's typed errors. *)
Theorem transport_failure_propagates (what : string) :
  (∀ rq, transport rq = Failure what) →
  (∀ (self : t)
     (to subject html_content sender text_content reply_to cc bcc : pyval)
     (w : World),
     sender ≠ PNone ∨
       (∃ e, DEFAULT_FROM_EMAIL (brevo_settings w) = Some e ∧ e ≠ "") →
     let run := send_email transport self to subject html_content sender
                  text_content reply_to cc bcc w in
     run.1 = Raise (TransportError what) ∧
     length (wire run.2) = S (length (wire w))) ∧
  (∀ (self : t) (to template_id params sender reply_to cc bcc : pyval)
     (w : World),
     let run := send_template_email transport self to template_id params
                  sender reply_to cc bcc w in
     run.1 = Raise (TransportError what) ∧
     length (wire run.2) = S (length (wire w))).
Proof.
  intros Hnet. split.
  - intros * Hsender run. subst run.
    rewrite send_email_run; cbv zeta. rewrite sender_resolved by done.
    rewrite _post_run; cbv zeta. rewrite Hnet; simpl.
    split; [done|]. rewrite length_app; simpl. lia.
  - intros. subst run.
    rewrite send_template_email_run; cbv zeta.
    rewrite _post_run; cbv zeta. rewrite Hnet; simpl.
    split; [done|]. rewrite length_app; simpl. lia.
Qed.

(** X3: when the network answers with a 2xx response whose body decodes,
    both operations return the decoded body as it is, whatever JSON value it
    is (an object with a messageId, but also a list or null): nothing of it
    is checked. *)
Theorem send_success_returns_body (r : Response) (v : pyval) :
  (∀ rq, transport rq = Answer r) →
  200 ≤ status_code r ≤ 299 →
  json r = Decodes v →
  (∀ (self : t)
     (to subject html_content sender text_content reply_to cc bcc : pyval)
     (w : World),
     sender ≠ PNone ∨
       (∃ e, DEFAULT_FROM_EMAIL (brevo_settings w) = Some e ∧ e ≠ "") →
     (send_email transport self to subject html_content sender text_content
        reply_to cc bcc w).1 = Ok v) ∧
  (∀ (self : t) (to template_id params sender reply_to cc bcc : pyval)
     (w : World),
     (send_template_email transport self to template_id params sender
        reply_to cc bcc w).1 = Ok v).
Proof.
  intros Hnet Hs Hjson. apply is_success_true in Hs. split.
  - intros * Hsender.
    rewrite send_email_run; cbv zeta. rewrite sender_resolved by done.
    rewrite _post_run; cbv zeta.
    by rewrite Hnet, _handle_response_run, Hjson, Hs.
  - intros.
    rewrite send_template_email_run; cbv zeta. rewrite _post_run; cbv zeta.
    by rewrite Hnet, _handle_response_run, Hjson, Hs.
Qed.

(** X4: when the network answers with a non-2xx response whose body decodes
    to an object, both operations raise the error of the status code:
    BrevoAuthError for 401, BrevoRateLimitError for 429, BrevoAPIError for
    every other status (1xx and 3xx included), carrying the body's [message]
    (the response text when the body has none), the status code and the
    body. *)
Theorem send_error_raises_typed (r : Response) (d : gmap string pyval) :
  (∀ rq, transport rq = Answer r) →
  status_code r < 200 ∨ 299 < status_code r →
  json r = Decodes (PDict d) →
  let message := default (PStr (text r)) (d !! "message") in
  let raised :=
    if bool_decide (status_code r = 401) then
      BrevoAuthError message 401 (PDict d)
    else if bool_decide (status_code r = 429) then
      BrevoRateLimitError message 429 (PDict d)
    else BrevoAPIError message (status_code r) (PDict d) in
  (∀ (self : t)
     (to subject html_content sender text_content reply_to cc bcc : pyval)
     (w : World),
     sender ≠ PNone ∨
       (∃ e, DEFAULT_FROM_EMAIL (brevo_settings w) = Some e ∧ e ≠ "") →
     (send_email transport self to subject html_content sender text_content
        reply_to cc bcc w).1 = Raise raised) ∧
  (∀ (self : t) (to template_id params sender reply_to cc bcc : pyval)
     (w : World),
     (send_template_email transport self to template_id params sender
        reply_to cc bcc w).1 = Raise raised).
Proof.
  intros Hnet Hs Hjson message raised. subst message raised. split.
  - intros * Hsender.
    rewrite send_email_run; cbv zeta. rewrite sender_resolved by done.
    rewrite _post_run; cbv zeta. rewrite Hnet.
    by rewrite (handle_response_taxonomy self r _ d) by auto.
  - intros.
    rewrite send_template_email_run; cbv zeta. rewrite _post_run; cbv zeta.
    rewrite Hnet.
    by rewrite (handle_response_taxonomy self r _ d) by auto.
Qed.

(** X5: what the response handler raises is never BrevoConfigError,
    ValueError or a transport error.  It is RecursionError exactly when
    [response.json()] raised that, whatever the status code; in every other
    case the response was non-2xx.  On an object body the error carries the
    status code of the response, the body itself, and as message the value
    under the body's [message] key whenever the key is there, be it null,
    empty or not a string; the response text is used only when the key is
    missing. *)
Theorem handle_response_raise_inv (self : t) (r : Response) (w : World)
    (e : exn) :
  (_handle_response self r w).1 = Raise e →
  (∀ msg, e ≠ BrevoConfigError msg) ∧ e ≠ ValueError ∧
  (∀ what, e ≠ TransportError what) ∧
  (e = RecursionError ↔ json r = TooDeep) ∧
  (e ≠ RecursionError → status_code r < 200 ∨ 299 < status_code r) ∧
  (∀ d, json r = Decodes (PDict d) →
     error_status e = Some (status_code r) ∧
     error_body e = Some (PDict d) ∧
     error_message e =
       Some (match d !! "message" with
             | Some m => m
             | None => PStr (text r)
             end)).
Proof.
  rewrite _handle_response_run; cbv zeta. intros Hraise.
  assert (∀ b m,
            e = (if bool_decide (status_code r = 401) then
                   BrevoAuthError m 401 b
                 else if bool_decide (status_code r = 429) then
                   BrevoRateLimitError m 429 b
                 else BrevoAPIError m (status_code r) b) →
            (∀ msg, e ≠ BrevoConfigError msg) ∧ e ≠ ValueError ∧
            (∀ what, e ≠ TransportError what) ∧ e ≠ RecursionError ∧
            error_status e = Some (status_code r) ∧
            error_body e = Some b ∧ error_message e = Some m) as Hkind.
  { intros b m ->. repeat case_bool_decide; simpl; repeat split; try done.
    all: by f_equal. }
  destruct (json r) as [v| |].
  - destruct (is_success r) eqn:Hs; [done|]. apply is_success_false in Hs.
    destruct v;
      try (injection Hraise as <-;
           split; [done|]; split; [done|]; split; [done|];
           split; [done|]; split; [done|]; by intros ? [=]).
    destruct (Hkind (PDict d) (default (PStr (text r)) (d !! "message")))
      as (Hc & Hv & Ht & Hr & Hst & Hb & Hm).
    { repeat case_bool_decide; by injection Hraise as <-. }
    split; [done|]. split; [done|]. split; [done|].
    split; [done|]. split; [done|].
    intros d' [= <-]. split; [done|]. split; [done|].
    rewrite Hm. by destruct (d !! "message").
  - destruct (is_success r) eqn:Hs; [done|]. apply is_success_false in Hs.
    destruct (Hkind (PDict ∅) (PStr (text r))) as (Hc & Hv & Ht & Hr & _).
    { repeat case_bool_decide; by injection Hraise as <-. }
    split; [done|]. split; [done|]. split; [done|].
    split; [done|]. split; [done|]. by intros ? [=].
  - injection Hraise as <-.
    split; [done|]. split; [done|]. split; [done|].
    split; [done|]. split; [done|]. by intros ? [=].
Qed.

(** X6: applying the sandbox transformation a second time changes nothing
    any more. *)
Theorem apply_sandbox_idempotent (self : t) (payload : ref) (w : World) :
  let once := _apply_sandbox self payload w in
  _apply_sandbox self payload once.2 = once.
Proof.
  intros once. subst once. unfold _apply_sandbox. rewrite !bind_run.
  destruct (sandbox self); simpl; [|done].
  unfold with_heap; simpl. do 2 f_equal.
  rewrite alter_alter_eq. apply alter_ext. intros d _; simpl.
  apply insert_insert_eq.
Qed.

(** X7: the payload of a raw-content send has no keys beyond [sender], [to],
    [subject], [htmlContent], [textContent], [replyTo], [cc], [bcc] and
    [headers]; the payload of a template send none beyond [to],
    [templateId], [params], [sender], [replyTo], [cc], [bcc] and
    [headers]. *)
Theorem payload_keys_bounded (self : t) :
  (∀ (to subject html_content sender text_content reply_to cc bcc : pyval)
     (w : World),
     let w' := (send_email transport self to subject html_content sender
                  text_content reply_to cc bcc w).2 in
     wire w' = wire w ∨
     ∃ rq, wire w' = wire w ++ [rq] ∧
       ∀ k, is_Some (rq_json rq !! k) →
            k ∈ ["sender"; "to"; "subject"; "htmlContent"; "textContent";
                 "replyTo"; "cc"; "bcc"; "headers"]%string) ∧
  (∀ (to template_id params sender reply_to cc bcc : pyval) (w : World),
     let w' := (send_template_email transport self to template_id params
                  sender reply_to cc bcc w).2 in
     ∃ rq, wire w' = wire w ++ [rq] ∧
       ∀ k, is_Some (rq_json rq !! k) →
            k ∈ ["to"; "templateId"; "params"; "sender"; "replyTo"; "cc";
                 "bcc"; "headers"]%string).
Proof.
  split.
  - intros. subst w'. rewrite send_email_run; cbv zeta.
    destruct (is_None sender && _); [by left|]. right.
    rewrite _post_wire, deref_alloc. eexists. split; [done|]; simpl.
    intros k [v Hv].
    split_key k "sender". split_key k "to". split_key k "subject".
    split_key k "htmlContent". split_key k "textContent".
    split_key k "replyTo". split_key k "cc". split_key k "bcc".
    split_key k "headers".
    revert Hv. by payload_lookup.
  - intros. subst w'. rewrite send_template_email_run; cbv zeta.
    rewrite _post_wire, deref_alloc. eexists. split; [done|]; simpl.
    intros k [v Hv].
    split_key k "to". split_key k "templateId". split_key k "params".
    split_key k "sender". split_key k "replyTo". split_key k "cc".
    split_key k "bcc". split_key k "headers".
    revert Hv. by payload_lookup.
Qed.

Lemma init_ok_inv (key : option string) (w w1 : World) (c : t) :
  __init__ key w = (Ok c, w1) →
  w1 = w ∧ api_key c ≠ "" ∧
  base_url c = API_BASE_URL (brevo_settings w) ∧
  timeout c = TIMEOUT (brevo_settings w) ∧
  sandbox c = SANDBOX (brevo_settings w).
Proof.
  unfold __init__. rewrite bind_run.
  destruct key as [k|]; [destruct (bool_decide (k = "")) eqn:Hk|]; simpl.
  - destruct (API_KEY _) as [k'|]; [|done].
    destruct (bool_decide (k' = "")) eqn:Hk'; [done|].
    apply bool_decide_eq_false in Hk'. simpl. by intros [= <- <-].
  - rewrite Hk. apply bool_decide_eq_false in Hk. simpl. by intros [= <- <-].
  - destruct (API_KEY _) as [k'|]; [|done].
    destruct (bool_decide (k' = "")) eqn:Hk'; [done|].
    apply bool_decide_eq_false in Hk'. simpl. by intros [= <- <-].
Qed.

(** X9: a client that was constructed keeps what it was constructed with.
    Whatever the settings have become by the time of a template send, the
    request goes to the base URL, under the timeout and with the sandbox
    marking of the settings at construction, and its [api-key] header is a
    non-empty key. *)
Theorem constructed_client_keeps_config (key : option string) (w w1 : World)
    (c : t) (s' : Settings)
    (to template_id params sender reply_to cc bcc : pyval) :
  __init__ key w = (Ok c, w1) →
  ∃ rq,
    wire (send_template_email transport c to template_id params sender
            reply_to cc bcc (with_settings s' w1)).2 = wire w ++ [rq] ∧
    rq_url rq = (API_BASE_URL (brevo_settings w) ++ "/smtp/email")%string ∧
    rq_timeout rq = TIMEOUT (brevo_settings w) ∧
    (∃ k, rq_headers rq !! "api-key" = Some k ∧ k ≠ "") ∧
    rq_json rq !! "headers" =
      (if SANDBOX (brevo_settings w) then
         Some (PDict {[ "X-Sib-Sandbox" := PStr "drop" ]})
       else None).
Proof.
  intros (-> & Hkey & <- & <- & <-)%init_ok_inv.
  rewrite send_template_email_run; cbv zeta.
  rewrite _post_wire, deref_alloc; simpl.
  eexists. split; [done|]; simpl. repeat split.
  - exists (api_key c). split; [|done]. unfold _get_headers. by payload_lookup.
  - by payload_lookup.
Qed.

(** X10: the client a send goes through shows in the payload under
    [headers] only: through any two clients the same arguments give payloads
    that agree on every other key. *)
Theorem payload_independent_of_client (self self' : t) :
  (∀ (to subject html_content sender text_content reply_to cc bcc : pyval)
     (w : World),
     let w1 := (send_email transport self to subject html_content sender
                  text_content reply_to cc bcc w).2 in
     let w2 := (send_email transport self' to subject html_content sender
                  text_content reply_to cc bcc w).2 in
     wire w1 = wire w ∧ wire w2 = wire w ∨
     ∃ rq rq', wire w1 = wire w ++ [rq] ∧ wire w2 = wire w ++ [rq'] ∧
       ∀ k, k ≠ "headers" → rq_json rq !! k = rq_json rq' !! k) ∧
  (∀ (to template_id params sender reply_to cc bcc : pyval) (w : World),
     let w1 := (send_template_email transport self to template_id params
                  sender reply_to cc bcc w).2 in
     let w2 := (send_template_email transport self' to template_id params
                  sender reply_to cc bcc w).2 in
     ∃ rq rq', wire w1 = wire w ++ [rq] ∧ wire w2 = wire w ++ [rq'] ∧
       ∀ k, k ≠ "headers" → rq_json rq !! k = rq_json rq' !! k).
Proof.
  split.
  - intros. subst w1 w2. rewrite !send_email_run; cbv zeta.
    destruct (is_None sender && _); [by left|]. right.
    rewrite !_post_wire, !deref_alloc. eexists _, _.
    split; [done|]. split; [done|]; simpl.
    intros k Hk. by rewrite !(lookup_set_if_ne _ "headers").
  - intros. subst w1 w2. rewrite !send_template_email_run; cbv zeta.
    rewrite !_post_wire, !deref_alloc. eexists _, _.
    split; [done|]. split; [done|]; simpl.
    intros k Hk. by rewrite !(lookup_set_if_ne _ "headers").
Qed.

(** X11: a raw-content send that raises BrevoConfigError was called without
    a sender, found no usable default, and has left the world as it was: no
    request went out and no dictionary was built.  A configuration error is
    never the outcome of a call that reached the network. *)
Theorem send_email_config_error_inv (self : t)
    (to subject html_content sender text_content reply_to cc bcc : pyval)
    (w : World) (msg : string) :
  let run := send_email transport self to subject html_content sender
               text_content reply_to cc bcc w in
  run.1 = Raise (BrevoConfigError msg) →
  run.2 = w ∧ sender = PNone ∧
  (DEFAULT_FROM_EMAIL (brevo_settings w) = None ∨
   DEFAULT_FROM_EMAIL (brevo_settings w) = Some "").
Proof.
  intros run. subst run. rewrite send_email_run; cbv zeta.
  destruct (is_None sender && _) eqn:Hunresolved.
  - intros _. apply andb_true_iff in Hunresolved as [Hs Hd].
    split; [done|]. split; [by apply is_None_true|].
    destruct (DEFAULT_FROM_EMAIL _) as [e|]; [|by left]. right.
    simpl in Hd. apply negb_true_iff, negb_false_iff in Hd.
    by apply bool_decide_eq_true in Hd as ->.
  - rewrite _post_run; cbv zeta. destruct (transport _); [|done].
    intros Hraise. by apply _handle_response_not_config in Hraise.
Qed.

End Further.

Module MoreSamples.

(** A network that cannot be reached. *)
Definition unreachable : Request → Reply := λ _, Failure "timed out".

Definition invalid_key : Response :=
  mkResponse 401 "{'message': 'Invalid API key'}"
    (Decodes (PDict {[ "message" := PStr "Invalid API key" ]})).

(** A service that rejects the API key. *)
Definition rejecting : Request → Reply := λ _, Answer invalid_key.

(** A rate-limit answer whose message is null. *)
Definition slow_down : Response :=
  mkResponse 429 "{'message': null}"
    (Decodes (PDict {[ "message" := PNone ]})).

Definition sandboxed : Settings :=
  mkSettings (Some "test-key") "https://api.brevo.com/v3" 10 true None.

Definition moved : Settings :=
  mkSettings (Some "other-key") "https://elsewhere.example" 99 false None.

End MoreSamples.

Import MoreSamples.

Lemma transport_failure_propagates_witness :
  (send_template_email unreachable client recipients (PInt 42) PNone PNone
     PNone PNone PNone (world no_default)).1 =
  Raise (TransportError "timed out").
Proof.
  refine (proj1 (proj2 (transport_failure_propagates unreachable "timed out" _)
                   client recipients (PInt 42) PNone PNone PNone PNone PNone
                   (world no_default))).
  intros rq. reflexivity.
Defined.

Lemma send_success_returns_body_witness :
  (send_email accepting client recipients (PStr "S") (PStr "<p>x</p>") from
     PNone PNone PNone PNone (world no_default)).1 =
  Ok (PDict {[ "messageId" := PStr "m1" ]}).
Proof.
  refine (proj1 (send_success_returns_body accepting
                   (mkResponse 200 "{'messageId': 'm1'}"
                      (Decodes (PDict {[ "messageId" := PStr "m1" ]})))
                   (PDict {[ "messageId" := PStr "m1" ]}) _ _ _)
            client recipients (PStr "S") (PStr "<p>x</p>") from
            PNone PNone PNone PNone (world no_default) _).
  - intros rq. reflexivity.
  - simpl. lia.
  - reflexivity.
  - left. discriminate.
Defined.

Lemma send_error_raises_typed_witness :
  (send_template_email rejecting client recipients (PInt 42) PNone PNone
     PNone PNone PNone (world no_default)).1 =
  Raise (BrevoAuthError (PStr "Invalid API key") 401
           (PDict {[ "message" := PStr "Invalid API key" ]})).
Proof.
  refine (proj2 (send_error_raises_typed rejecting invalid_key
                   {[ "message" := PStr "Invalid API key" ]} _ _ _)
            client recipients (PInt 42) PNone PNone PNone PNone PNone
            (world no_default)).
  - intros rq. reflexivity.
  - right. simpl. lia.
  - reflexivity.
Defined.

Lemma handle_response_raise_inv_witness :
  (_handle_response client slow_down (world no_default)).1 =
    Raise (BrevoRateLimitError PNone 429 (PDict {[ "message" := PNone ]})) ∧
  error_message (BrevoRateLimitError PNone 429 (PDict {[ "message" := PNone ]}))
  = Some PNone.
Proof.
  split; [reflexivity|].
  destruct (handle_response_raise_inv client slow_down (world no_default)
              (BrevoRateLimitError PNone 429
                 (PDict {[ "message" := PNone ]})))
    as (_ & _ & _ & _ & _ & Hcarried).
  { reflexivity. }
  destruct (Hcarried {[ "message" := PNone ]}) as (_ & _ & Hmessage).
  { reflexivity. }
  exact Hmessage.
Defined.

Lemma constructed_client_keeps_config_witness :
  ∃ rq,
    wire (send_template_email accepting
            (mk "test-key" "https://api.brevo.com/v3" 10 true) recipients
            (PInt 42) PNone PNone PNone PNone PNone
            (with_settings moved (world sandboxed))).2 =
    wire (world sandboxed) ++ [rq] ∧
    rq_url rq = "https://api.brevo.com/v3/smtp/email"%string ∧
    rq_timeout rq = 10 ∧
    (∃ k, rq_headers rq !! "api-key" = Some k ∧ k ≠ "") ∧
    rq_json rq !! "headers" =
      Some (PDict {[ "X-Sib-Sandbox" := PStr "drop" ]}).
Proof.
  refine (constructed_client_keeps_config accepting (Some "test-key")
            (world sandboxed) (world sandboxed)
            (mk "test-key" "https://api.brevo.com/v3" 10 true) moved
            recipients (PInt 42) PNone PNone PNone PNone PNone _).
  reflexivity.
Defined.

Lemma send_email_config_error_inv_witness :
  (send_email accepting client recipients (PStr "S") (PStr "<p>x</p>") PNone
     PNone PNone PNone PNone (world no_default)).2 = world no_default.
Proof.
  refine (proj1 (send_email_config_error_inv accepting client recipients
                   (PStr "S") (PStr "<p>x</p>") PNone PNone PNone PNone PNone
                   (world no_default)
                   "No sender provided and DJ_BREVO['DEFAULT_FROM_EMAIL'] not set."
                   _)).
  reflexivity.
Defined.
